(** * A verification model of the URL-shortener backend (api/main.py)

    The backend is a FastAPI application over one psycopg2 connection.
    The file embeds, in this order:
    - the Python values the handlers compute with (str, bytes, str.encode,
      slicing, hexdigest);
    - hashlib.md5, written out after RFC 1321;
    - the psycopg2 connection and the two tables, with the statements the
      handlers execute;
    - the route functions of api/main.py;
    - the properties of the route functions. *)

From Stdlib Require Import String Ascii ZArith List Bool Lia.
Import ListNotations.
Local Open Scope Z_scope.

(** ** Exceptions and results *)

(** The exceptions that the modelled calls can raise.  No handler of
    api/main.py catches any of them: a raised exception leaves the
    handler and FastAPI answers with a 500-class response. *)
Inductive exception : Type :=
| UnicodeEncodeError      (* str.encode, and psycopg2 encoding a parameter *)
| ValueError              (* psycopg2: a str parameter holding a NUL *)
| UniqueViolation         (* PostgreSQL 23505: duplicate primary key *)
| UndefinedTable          (* PostgreSQL 42P01: the relation does not exist *)
| InFailedSqlTransaction  (* PostgreSQL 25P02: the transaction is aborted *)
| ProgrammingError.       (* psycopg2: fetch on a cursor with no result set *)

Inductive result (A : Type) : Type :=
| Ok (a : A)
| Raise (e : exception).
Arguments Ok {A} a.
Arguments Raise {A} e.

(** ** Python values *)

Module Python.

(** A Python [str] is a sequence of code points, a [bytes] a sequence
    of octets; both are kept as lists of integers. *)
Definition str := list Z.
Definition bytes := list Z.

(** A string literal of the source, as a [str]. *)
Definition lit (s : string) : str :=
  map (fun a => Z.of_N (N_of_ascii a)) (list_ascii_of_string s).

(** UTF-8 encoding of one code point.  The surrogates U+D800..U+DFFF
    have no encoding ([str.encode] is strict by default); an integer
    outside 0..0x10FFFF is no code point at all and is refused too. *)
Definition utf8_char (c : Z) : option bytes :=
  if c <? 0 then None
  else if c <? 0x80 then Some [c]
  else if c <? 0x800 then
    Some [Z.lor 0xC0 (Z.shiftr c 6); Z.lor 0x80 (Z.land c 0x3F)]
  else if (0xD800 <=? c) && (c <=? 0xDFFF) then None
  else if c <? 0x10000 then
    Some [Z.lor 0xE0 (Z.shiftr c 12);
          Z.lor 0x80 (Z.land (Z.shiftr c 6) 0x3F);
          Z.lor 0x80 (Z.land c 0x3F)]
  else if c <? 0x110000 then
    Some [Z.lor 0xF0 (Z.shiftr c 18);
          Z.lor 0x80 (Z.land (Z.shiftr c 12) 0x3F);
          Z.lor 0x80 (Z.land (Z.shiftr c 6) 0x3F);
          Z.lor 0x80 (Z.land c 0x3F)]
  else None.

(** [s.encode()]: UTF-8, errors='strict'. *)
Fixpoint encode (s : str) : result bytes :=
  match s with
  | [] => Ok []
  | c :: s' =>
      match utf8_char c, encode s' with
      | Some b, Ok bs => Ok (b ++ bs)
      | None, _ => Raise UnicodeEncodeError
      | _, Raise e => Raise e
      end
  end.

(** The values a [bytes] holds. *)
Definition octet (x : Z) : Prop := 0 <= x < 256.

(** [s[:n]] for a literal [n >= 0]. *)
Definition slice_to (n : nat) (s : str) : str := firstn n s.

(** The digits [bytes.hex] and [hexdigest] write. *)
Definition hexdigits : str := lit "0123456789abcdef".

Definition hex_digit (d : Z) : Z := nth (Z.to_nat d) hexdigits 0.

Definition hex_byte (b : Z) : str :=
  [hex_digit (Z.land (Z.shiftr b 4) 0xF); hex_digit (Z.land b 0xF)].

(** [b.hex()]: two lowercase digits per octet. *)
Definition hex (b : bytes) : str := flat_map hex_byte b.

(** A character of [0-9a-f]. *)
Definition is_lower_hex (c : Z) : bool :=
  ((48 <=? c) && (c <=? 57)) || ((97 <=? c) && (c <=? 102)).

End Python.

(** ** hashlib.md5 (RFC 1321) *)

Module Hashlib.
Import Python.

Definition mask32 : Z := 0xFFFFFFFF.
Definition add32 (x y : Z) : Z := Z.land (x + y) mask32.
Definition not32 (x : Z) : Z := Z.lxor x mask32.
Definition rotl32 (x n : Z) : Z :=
  Z.land (Z.lor (Z.shiftl x n) (Z.shiftr x (32 - n))) mask32.

(** Per-round shift amounts. *)
Definition shifts : list Z :=
  [7; 12; 17; 22; 7; 12; 17; 22; 7; 12; 17; 22; 7; 12; 17; 22;
   5;  9; 14; 20; 5;  9; 14; 20; 5;  9; 14; 20; 5;  9; 14; 20;
   4; 11; 16; 23; 4; 11; 16; 23; 4; 11; 16; 23; 4; 11; 16; 23;
   6; 10; 15; 21; 6; 10; 15; 21; 6; 10; 15; 21; 6; 10; 15; 21].

(** K[i] = floor(2^32 * abs(sin(i + 1))). *)
Definition K : list Z :=
  [0xd76aa478; 0xe8c7b756; 0x242070db; 0xc1bdceee;
   0xf57c0faf; 0x4787c62a; 0xa8304613; 0xfd469501;
   0x698098d8; 0x8b44f7af; 0xffff5bb1; 0x895cd7be;
   0x6b901122; 0xfd987193; 0xa679438e; 0x49b40821;
   0xf61e2562; 0xc040b340; 0x265e5a51; 0xe9b6c7aa;
   0xd62f105d; 0x02441453; 0xd8a1e681; 0xe7d3fbc8;
   0x21e1cde6; 0xc33707d6; 0xf4d50d87; 0x455a14ed;
   0xa9e3e905; 0xfcefa3f8; 0x676f02d9; 0x8d2a4c8a;
   0xfffa3942; 0x8771f681; 0x6d9d6122; 0xfde5380c;
   0xa4beea44; 0x4bdecfa9; 0xf6bb4b60; 0xbebfbc70;
   0x289b7ec6; 0xeaa127fa; 0xd4ef3085; 0x04881d05;
   0xd9d4d039; 0xe6db99e5; 0x1fa27cf8; 0xc4ac5665;
   0xf4292244; 0x432aff97; 0xab9423a7; 0xfc93a039;
   0x655b59c3; 0x8f0ccc92; 0xffeff47d; 0x85845dd1;
   0x6fa87e4f; 0xfe2ce6e0; 0xa3014314; 0x4e0811a1;
   0xf7537e82; 0xbd3af235; 0x2ad7d2bb; 0xeb86d391].

(** The chaining value (A, B, C, D). *)
Record state := mkState { sA : Z; sB : Z; sC : Z; sD : Z }.

Definition init : state :=
  mkState 0x67452301 0xefcdab89 0x98badcfe 0x10325476.

(** Little-endian octets of a 32-bit word and of a 64-bit length. *)
Definition le_bytes (n : nat) (w : Z) : bytes :=
  map (fun i => Z.land (Z.shiftr w (8 * Z.of_nat i)) 0xFF) (seq 0 n).

Definition le_word (b : bytes) : Z :=
  fold_right (fun x acc => x + 256 * acc) 0 b.

(** The sixteen words of a 64-octet block. *)
Fixpoint words (n : nat) (b : bytes) : list Z :=
  match n with
  | O => []
  | S n' => le_word (firstn 4 b) :: words n' (skipn 4 b)
  end.

(** One of the 64 operations on the chaining value. *)
Definition step (M : list Z) (st : state) (i : nat) : state :=
  let '(mkState a b c d) := st in
  let iz := Z.of_nat i in
  let '(f, g) :=
    if iz <? 16 then
      (Z.lor (Z.land b c) (Z.land (not32 b) d), iz)
    else if iz <? 32 then
      (Z.lor (Z.land d b) (Z.land (not32 d) c), (5 * iz + 1) mod 16)
    else if iz <? 48 then
      (Z.lxor (Z.lxor b c) d, (3 * iz + 5) mod 16)
    else
      (Z.lxor c (Z.lor b (not32 d)), (7 * iz) mod 16) in
  let f' := add32 (add32 (add32 f a) (nth i K 0)) (nth (Z.to_nat g) M 0) in
  mkState d (add32 b (rotl32 f' (nth i shifts 0))) b c.

(** The compression of one block into the chaining value. *)
Definition compress (st : state) (block : bytes) : state :=
  let M := words 16 block in
  let r := fold_left (step M) (seq 0 64) st in
  mkState (add32 (sA st) (sA r)) (add32 (sB st) (sB r))
          (add32 (sC st) (sC r)) (add32 (sD st) (sD r)).

(** Padding: one 0x80, zeros up to 56 mod 64, the bit length on 64 bits. *)
Definition pad (msg : bytes) : bytes :=
  let len := Z.of_nat (length msg) in
  msg ++ [0x80] ++ repeat 0 (Z.to_nat ((55 - len) mod 64))
      ++ le_bytes 8 ((8 * len) mod 2 ^ 64).

Fixpoint process (n : nat) (b : bytes) (st : state) : state :=
  match n with
  | O => st
  | S n' => process n' (skipn 64 b) (compress st (firstn 64 b))
  end.

(** The digest of a whole message. *)
Definition md5_digest (data : bytes) : bytes :=
  let p := pad data in
  let st := process (length p / 64) p init in
  le_bytes 4 (sA st) ++ le_bytes 4 (sB st)
    ++ le_bytes 4 (sC st) ++ le_bytes 4 (sD st).

(** The hash object: the octets fed to it so far. *)
Record md5_object := { fed : bytes }.

(** [hashlib.md5(data)], [h.digest()], [h.hexdigest()]. *)
Definition md5 (data : bytes) : md5_object := {| fed := data |}.
Definition digest (h : md5_object) : bytes := md5_digest (fed h).
Definition hexdigest (h : md5_object) : str := hex (digest h).

End Hashlib.

(** ** PostgreSQL behind psycopg2 *)

Module Psycopg2.
Import Python.

(** *** The tables *)

(** A row of [urls] (main.py:26-32): three TEXT columns, NOT NULL,
    [shortCode] the primary key. *)
Record url_row := { shortCode : str; longUrl : str; urlDesc : str }.

(** Modelled from the spec: the [items] table is created outside this
    repository.  The spec gives an item a name and a description, both
    text, with no key and duplicates permitted; the columns carry the
    names the INSERT of main.py:80 uses. *)
Record item_row := { item_name : str; item_desc : str }.

(** The database: [items] may be missing, [urls] is created at start-up.
    Rows are kept in insertion order. *)
Record database := { items : option (list item_row); urls : list url_row }.

(** PostgreSQL folds an unquoted identifier to lower case: the column
    created as [shortCode] is reported as [shortcode]. *)
Definition fold_char (a : ascii) : ascii :=
  let n := nat_of_ascii a in
  if ((65 <=? n) && (n <=? 90))%nat then ascii_of_nat (n + 32) else a.

Fixpoint fold_ident (s : string) : string :=
  match s with
  | EmptyString => EmptyString
  | String a s' => String (fold_char a) (fold_ident s')
  end.

(** A result row: column names with their values. *)
Definition row := list (string * str).

Definition item_columns (r : item_row) : row :=
  [(fold_ident "item_name", item_name r); (fold_ident "item_desc", item_desc r)].

Definition url_columns (r : url_row) : row :=
  [(fold_ident "shortCode", shortCode r); (fold_ident "longUrl", longUrl r);
   (fold_ident "urlDesc", urlDesc r)].

(** Equality of TEXT values. *)
Fixpoint text_eqb (a b : str) : bool :=
  match a, b with
  | [], [] => true
  | x :: a', y :: b' => (x =? y) && text_eqb a' b'
  | _, _ => false
  end.

(** *** The statements of main.py *)

Inductive statement : Type :=
| SELECT_items                      (* SELECT * FROM items *)
| INSERT_items (name desc : str)    (* INSERT INTO items (item_name,item_desc) VALUES (%s,%s) *)
| INSERT_urls (code long desc : str)(* INSERT INTO urls (shortCode, longUrl, urlDesc) VALUES (%s, %s, %s) *)
| SELECT_urls                       (* SELECT * FROM urls *)
| SELECT_longUrl (code : str).      (* SELECT longUrl,urlDesc FROM urls WHERE shortCode = %s *)

(** The parameters bound to the [%s] of a statement, in order. *)
Definition parameters (q : statement) : list str :=
  match q with
  | SELECT_items | SELECT_urls => []
  | INSERT_items name desc => [name; desc]
  | INSERT_urls code long desc => [code; long; desc]
  | SELECT_longUrl code => [code]
  end.

(** What the server does with a statement: the new database and the
    result set ([None] for a statement that returns no rows), or the
    error; a failed statement changes nothing. *)
Definition run (q : statement) (d : database)
  : result (database * option (list row)) :=
  match q with
  | SELECT_items =>
      match items d with
      | None => Raise UndefinedTable
      | Some t => Ok (d, Some (map item_columns t))
      end
  | INSERT_items name desc =>
      match items d with
      | None => Raise UndefinedTable
      | Some t =>
          Ok ({| items := Some (t ++ [{| item_name := name; item_desc := desc |}]);
                 urls := urls d |}, None)
      end
  | INSERT_urls code long desc =>
      if existsb (fun r => text_eqb (shortCode r) code) (urls d)
      then Raise UniqueViolation
      else Ok ({| items := items d;
                  urls := urls d ++ [{| shortCode := code; longUrl := long;
                                        urlDesc := desc |}] |}, None)
  | SELECT_urls => Ok (d, Some (map url_columns (urls d)))
  | SELECT_longUrl code =>
      Ok (d, Some (map (fun r => [(fold_ident "longUrl", longUrl r);
                                  (fold_ident "urlDesc", urlDesc r)])
                       (filter (fun r => text_eqb (shortCode r) code) (urls d))))
  end.

(** *** The connection *)

(** The transaction status of a connection.  psycopg2 does not
    autocommit: the first statement opens a transaction, [commit] ends
    it, and a statement that fails leaves the transaction aborted
    until a rollback.  main.py never rolls back. *)
Inductive transaction_status : Type :=
| TRANSACTION_STATUS_IDLE
| TRANSACTION_STATUS_INTRANS
| TRANSACTION_STATUS_INERROR.

(** Every write of main.py is committed by the call that follows it,
    so no uncommitted row is pending when a later statement fails, and
    the connection needs no separate committed copy of the database. *)
Record connection := { db : database; status : transaction_status }.

(** A [str] parameter becomes a quoted literal: it is encoded in the
    connection's encoding (UTF-8), and a literal cannot hold a NUL. *)
Definition adapt (p : str) : result unit :=
  match encode p with
  | Raise e => Raise e
  | Ok b => if existsb (Z.eqb 0) b then Raise ValueError else Ok tt
  end.

Fixpoint adapt_all (ps : list str) : result unit :=
  match ps with
  | [] => Ok tt
  | p :: ps' =>
      match adapt p with
      | Raise e => Raise e
      | Ok _ => adapt_all ps'
      end
  end.

(** [cursor.execute(q, params)] against a connection: the parameters are
    adapted first, then the statement is sent; in an aborted transaction
    the server refuses it. *)
Definition execute (q : statement) (c : connection)
  : result (option (list row)) * connection :=
  match adapt_all (parameters q) with
  | Raise e => (Raise e, c)
  | Ok _ =>
      match status c with
      | TRANSACTION_STATUS_INERROR => (Raise InFailedSqlTransaction, c)
      | _ =>
          match run q (db c) with
          | Ok (d', rows) =>
              (Ok rows, {| db := d'; status := TRANSACTION_STATUS_INTRANS |})
          | Raise e =>
              (Raise e, {| db := db c; status := TRANSACTION_STATUS_INERROR |})
          end
      end
  end.

(** [conn.commit()]. *)
Definition commit (c : connection) : connection :=
  {| db := db c; status := TRANSACTION_STATUS_IDLE |}.

(** A row as the default cursor gives it (a tuple of values) and as
    RealDictCursor gives it (column name to value). *)
Definition tuple_of (r : row) : list str := map snd r.

End Psycopg2.

(** ** api/main.py *)

Module Main.
Import Python Psycopg2.

(** *** Responses *)

#[local] Set Warnings "-register-all".
Inductive json : Type :=
| JString (s : str)
| JBool (b : bool)
| JObject (members : list (string * json))
| JArray (elements : list json).

(** What a route function hands back to FastAPI: a dict or a list, sent
    as a JSON body, or [RedirectResponse(url=...)].  The model stops at
    the returned object; how the framework writes it on the wire is not
    part of it. *)
Inductive response : Type :=
| Return (body : json)
| RedirectResponse (url : str).

(** No route sets a status code: a returned body goes out with 200, a
    [RedirectResponse] with its default, 307. *)
Definition status_code (r : response) : Z :=
  match r with
  | Return _ => 200
  | RedirectResponse _ => 307
  end.

Definition is_redirect (r : response) : bool :=
  match r with
  | Return _ => false
  | RedirectResponse _ => true
  end.

(** A RealDictCursor row, serialised. *)
Definition dict_of (r : row) : json :=
  JObject (map (fun kv => (fst kv, JString (snd kv))) r).

(** *** The module-level state *)

(** [conn] (main.py:22) and the result set left on the shared cursor
    [cur] (main.py:23): [None] when its last statement returned no
    rows. *)
Record state := {
  conn : connection;
  cur : option (list (list str))
}.

(** Route functions run in a state and may raise. *)
Definition M (A : Type) : Type := state -> result A * state.

Definition ret {A} (a : A) : M A := fun s => (Ok a, s).

Definition bind {A B} (m : M A) (f : A -> M B) : M B :=
  fun s =>
    match m s with
    | (Ok a, s') => f a s'
    | (Raise e, s') => (Raise e, s')
    end.

Definition lift {A} (r : result A) : M A := fun s => (r, s).

Notation "x <- m ;; k" := (bind m (fun x => k))
  (at level 61, m at next level, right associativity).
Notation "m ;; k" := (bind m (fun _ => k))
  (at level 61, right associativity).

(** [cur.execute(q, params)] on the shared cursor; a failed call leaves
    it without a result set. *)
Definition cur_execute (q : statement) : M unit :=
  fun s =>
    match execute q (conn s) with
    | (Ok rows, c) =>
        (Ok tt, {| conn := c; cur := option_map (map tuple_of) rows |})
    | (Raise e, c) => (Raise e, {| conn := c; cur := None |})
    end.

(** [cur.fetchone()] on the shared cursor: the next row, or None. *)
Definition cur_fetchone : M (option (list str)) :=
  fun s =>
    match cur s with
    | None => (Raise ProgrammingError, s)
    | Some [] => (Ok None, s)
    | Some (t :: rest) => (Ok (Some t), {| conn := conn s; cur := Some rest |})
    end.

(** [c = conn.cursor(cursor_factory=RealDictCursor); c.execute(q);
    c.fetchall()] on a cursor local to the route function. *)
Definition dict_cursor_fetchall (q : statement) : M (list row) :=
  fun s =>
    match execute q (conn s) with
    | (Ok (Some rows), c) => (Ok rows, {| conn := c; cur := cur s |})
    | (Ok None, c) => (Raise ProgrammingError, {| conn := c; cur := cur s |})
    | (Raise e, c) => (Raise e, {| conn := c; cur := cur s |})
    end.

(** [conn.commit()]. *)
Definition conn_commit : M unit :=
  fun s => (Ok tt, {| conn := commit (conn s); cur := cur s |}).

(** The state after the module is loaded (main.py:22-33) on a database
    [d]: the connection is idle, the cursor holds no result. *)
Definition startup (d : database) : state :=
  {| conn := {| db := d; status := TRANSACTION_STATUS_IDLE |}; cur := None |}.

(** *** The route functions *)

(** The [Body(...)] parameters carry no type annotation; they are taken
    as [str], the text fields the routes are written for. *)

(** GET / (main.py:53-55). *)
Definition root : M response :=
  ret (Return (JObject [("message"%string,
                         JString (lit "backend server with database is running"))])).

(** GET /items (main.py:63-71). *)
Definition select_all_item_records : M response :=
  data <- dict_cursor_fetchall SELECT_items ;;
  ret (Return (JArray (map dict_of data))).

(** POST /item (main.py:75-82). *)
Definition insert_new_item_record (new_item_name new_item_desc : str)
  : M response :=
  cur_execute (INSERT_items new_item_name new_item_desc) ;;
  conn_commit ;;
  ret (Return (JObject [("success"%string, JBool true);
                        ("message"%string, JString (lit "new record added"))])).

(** [hashlib.md5(longUrl.encode()).hexdigest()[:10]] (main.py:93). *)
Definition short_code (longUrl : str) : result str :=
  match encode longUrl with
  | Ok b => Ok (slice_to 10 (Hashlib.hexdigest (Hashlib.md5 b)))
  | Raise e => Raise e
  end.

(** POST /shorten (main.py:91-96). *)
Definition shorten_url (longUrl urlDesc : str) : M response :=
  shortCode <- lift (short_code longUrl) ;;
  cur_execute (INSERT_urls shortCode longUrl urlDesc) ;;
  conn_commit ;;
  ret (Return (JObject [("shortCode"%string, JString shortCode)])).

(** GET /urls (main.py:101-106). *)
Definition get_all_urls : M response :=
  data <- dict_cursor_fetchall SELECT_urls ;;
  ret (Return (JArray (map dict_of data))).

(** GET /{shortCode} (main.py:109-118).  [if result:] holds for a row
    that is neither None nor an empty tuple, and then [result[0]] is
    its first value. *)
Definition get_long_url (shortCode : str) : M response :=
  cur_execute (SELECT_longUrl shortCode) ;;
  result <- cur_fetchone ;;
  match result with
  | Some (url :: _) => ret (RedirectResponse url)
  | _ => ret (Return (JObject [("error"%string, JString (lit "URL not found"))]))
  end.

End Main.

(** ** Vocabulary of the specification *)

Module Spec.
Import Python Psycopg2 Main.

(** The short code in the specification's words: the content hash (a
    128-bit message digest) of the UTF-8 octets of the long URL,
    hex-encoded, truncated to its first 10 characters. *)
Definition spec_shortCode (utf8 : bytes) : str :=
  firstn 10 (hex (Hashlib.md5_digest utf8)).

(** No row of [urls] has the code. *)
Definition no_row (code : str) (s : state) : Prop :=
  forall r, In r (urls (db (conn s))) -> shortCode r <> code.

(** Some row of [urls] has the code. *)
Definition has_row (code : str) (s : state) : Prop :=
  exists r, In r (urls (db (conn s))) /\ shortCode r = code.

(** The connection can still run statements. *)
Definition usable (s : state) : Prop :=
  status (conn s) <> TRANSACTION_STATUS_INERROR.

(** The body [{"shortCode": code}]. *)
Definition shortCode_body (code : str) : json :=
  JObject [("shortCode"%string, JString code)].

(** The body [{"error": "URL not found"}]. *)
Definition not_found : json :=
  JObject [("error"%string, JString (lit "URL not found"))].

(** The state a successful POST /shorten leaves. *)
Definition shortened (code longUrl urlDesc : str) (s : state) : state :=
  {| conn :=
       {| db := {| items := items (db (conn s));
                   urls := urls (db (conn s))
                             ++ [{| shortCode := code; longUrl := longUrl;
                                    urlDesc := urlDesc |}] |};
          status := TRANSACTION_STATUS_IDLE |};
     cur := None |}.

(** The array GET /items returns has an element that carries the name
    under [name_key] and the description under [desc_key]. *)
Definition item_listed (name_key desc_key : string) (name desc : str)
           (r : response) : Prop :=
  exists elements members,
    r = Return (JArray elements)
    /\ In (JObject members) elements
    /\ In (name_key, JString name) members
    /\ In (desc_key, JString desc) members.


(** Every row's code is the short code of the row's long URL. *)
Definition codes_hashed (s : state) : Prop :=
  forall r, In r (urls (db (conn s))) -> short_code (longUrl r) = Ok (shortCode r).

(** A database with both tables empty, and a URL with its description. *)
Definition fresh : database := {| items := Some []; urls := [] |}.
Definition example_url : str := lit "https://example.com".
Definition example_desc : str := lit "d".

(** The state after the same URL was shortened twice: the second
    request failed and left the transaction aborted. *)
Definition after_duplicate : state :=
  snd (shorten_url example_url example_desc
         (snd (shorten_url example_url example_desc (startup fresh)))).

End Spec.

(** ** The application as a whole *)

Module Service.
Import Python Psycopg2 Main Spec.

(** A request, already matched to its route (main.py:53, 63, 75, 91,
    101, 109). *)
Inductive request : Type :=
| GET_root
| GET_items
| POST_item (new_item_name new_item_desc : str)
| POST_shorten (longUrl urlDesc : str)
| GET_urls
| GET_shortCode (shortCode : str).

(** The route function that serves a request. *)
Definition handle (q : request) : M response :=
  match q with
  | GET_root => root
  | GET_items => select_all_item_records
  | POST_item new_item_name new_item_desc =>
      insert_new_item_record new_item_name new_item_desc
  | POST_shorten longUrl urlDesc => shorten_url longUrl urlDesc
  | GET_urls => get_all_urls
  | GET_shortCode shortCode => get_long_url shortCode
  end.

(** The state after a sequence of requests served one after the other.
    A request whose route function raises is answered with a 500 and the
    next request is served in the state it left. *)
Fixpoint serve (qs : list request) (s : state) : state :=
  match qs with
  | [] => s
  | q :: qs' => serve qs' (snd (handle q s))
  end.



(** The short codes and the long URLs stored in [urls], in row order. *)
Definition stored_codes (s : state) : list str :=
  map shortCode (urls (db (conn s))).

Definition stored_longUrls (s : state) : list str :=
  map longUrl (urls (db (conn s))).

(** A code point [str.encode] refuses: a surrogate, or an integer that
    is no code point. *)
Definition unencodable (c : Z) : Prop :=
  c < 0 \/ 0xD800 <= c <= 0xDFFF \/ 0x110000 <= c.

(** The transaction status a request leaves when its route function
    returns: GET / does not touch the connection, the two POST routes
    commit, the three GET routes on the database do not. *)
Definition status_after (q : request) (before : transaction_status)
  : transaction_status :=
  match q with
  | GET_root => before
  | POST_item _ _ | POST_shorten _ _ => TRANSACTION_STATUS_IDLE
  | GET_items | GET_urls | GET_shortCode _ => TRANSACTION_STATUS_INTRANS
  end.

End Service.

(** * Properties *)

Import Python Psycopg2 Main Spec.

Lemma Ok_inj {A} (a b : A) : Ok a = Ok b -> a = b.
Proof. intros H. exact (f_equal (fun r => match r with Ok x => x | Raise _ => a end) H). Qed.

(** ** The hash and the encodings *)

Section Digest.

Lemma le_bytes_length (n : nat) (w : Z) : length (Hashlib.le_bytes n w) = n.
Proof. unfold Hashlib.le_bytes. now rewrite length_map, length_seq. Qed.

(** The digest has 16 octets, whatever was hashed. *)
Lemma md5_digest_length (data : bytes) :
  length (Hashlib.md5_digest data) = 16%nat.
Proof.
  unfold Hashlib.md5_digest. cbv zeta.
  now rewrite !length_app, !le_bytes_length.
Qed.

Lemma hex_length (b : bytes) : length (hex b) = (2 * length b)%nat.
Proof.
  unfold hex. induction b as [|x b IH]; simpl; [reflexivity|].
  rewrite IH. lia.
Qed.

Lemma land_15_range (x : Z) : 0 <= Z.land x 0xF < 16.
Proof.
  change 0xF with (Z.ones 4). rewrite Z.land_ones by lia.
  change (2 ^ 4) with 16. apply Z.mod_pos_bound. lia.
Qed.

Lemma hex_digit_lower (d : Z) :
  0 <= d < 16 -> is_lower_hex (hex_digit d) = true.
Proof.
  intros Hd.
  assert (H : d = 0 \/ d = 1 \/ d = 2 \/ d = 3 \/ d = 4 \/ d = 5 \/ d = 6
              \/ d = 7 \/ d = 8 \/ d = 9 \/ d = 10 \/ d = 11 \/ d = 12
              \/ d = 13 \/ d = 14 \/ d = 15) by lia.
  repeat (destruct H as [->|H]; [reflexivity|]). now subst.
Qed.

Lemma hex_lower (b : bytes) : forallb is_lower_hex (hex b) = true.
Proof.
  unfold hex. induction b as [|x b IH]; [reflexivity|].
  cbn [flat_map hex_byte app forallb].
  now rewrite !hex_digit_lower, IH by apply land_15_range.
Qed.

Lemma forallb_firstn {A} (f : A -> bool) (n : nat) (l : list A) :
  forallb f l = true -> forallb f (firstn n l) = true.
Proof.
  revert l. induction n as [|n IH]; intros [|x l]; simpl; auto.
  rewrite !andb_true_iff. intros [-> H]. auto.
Qed.

End Digest.

(** [str.encode] writes octets. *)
Section Octets.

Lemma lor_octet (a b : Z) : octet a -> octet b -> octet (Z.lor a b).
Proof.
  unfold octet. intros Ha Hb. split; [apply Z.lor_nonneg; lia|].
  destruct (Z.eq_dec (Z.lor a b) 0) as [->|Hne]; [lia|].
  assert (Hpos : 0 < Z.lor a b) by (pose proof (proj2 (Z.lor_nonneg a b)); lia).
  change 256 with (2 ^ 8). apply Z.log2_lt_pow2; [exact Hpos|].
  rewrite Z.log2_lor by lia. apply Z.max_lub_lt.
  - destruct (Z.eq_dec a 0) as [->|]; [reflexivity|]. apply Z.log2_lt_pow2; lia.
  - destruct (Z.eq_dec b 0) as [->|]; [reflexivity|]. apply Z.log2_lt_pow2; lia.
Qed.

Lemma land_63_octet (x : Z) : octet (Z.land x 0x3F).
Proof.
  unfold octet. change 0x3F with (Z.ones 6). rewrite Z.land_ones by lia.
  pose proof (Z.mod_pos_bound x (2 ^ 6) eq_refl). lia.
Qed.

Lemma shiftr_octet (c k : Z) : 0 <= k -> 0 <= c < 256 * 2 ^ k -> octet (Z.shiftr c k).
Proof.
  unfold octet. intros Hk Hc. rewrite Z.shiftr_div_pow2 by lia.
  assert (0 < 2 ^ k) by (apply Z.pow_pos_nonneg; lia).
  split; [apply Z.div_pos; lia|apply Z.div_lt_upper_bound; lia].
Qed.

Lemma utf8_char_octets (c : Z) (b : bytes) :
  utf8_char c = Some b -> Forall octet b.
Proof.
  assert (Hinj : forall x y : bytes, Some x = Some y -> x = y)
    by (intros x y H; exact (f_equal (fun o => match o with Some z => z | None => x end) H)).
  unfold utf8_char.
  destruct (Z.ltb_spec c 0); [discriminate|].
  destruct (Z.ltb_spec c 0x80).
  { intros H1. apply Hinj in H1. subst b.
    repeat apply Forall_cons; [unfold octet; lia|apply Forall_nil]. }
  destruct (Z.ltb_spec c 0x800).
  { intros H2. apply Hinj in H2. subst b.
    repeat apply Forall_cons; try apply Forall_nil; apply lor_octet;
      try apply land_63_octet; try (apply shiftr_octet; lia); unfold octet; lia. }
  destruct ((0xD800 <=? c) && (c <=? 0xDFFF)); [discriminate|].
  destruct (Z.ltb_spec c 0x10000).
  { intros H3. apply Hinj in H3. subst b.
    repeat apply Forall_cons; try apply Forall_nil; apply lor_octet;
      try apply land_63_octet; try (apply shiftr_octet; lia); unfold octet; lia. }
  destruct (Z.ltb_spec c 0x110000); [|discriminate].
  intros H4. apply Hinj in H4. subst b.
  repeat apply Forall_cons; try apply Forall_nil; apply lor_octet;
    try apply land_63_octet; try (apply shiftr_octet; lia); unfold octet; lia.
Qed.

Lemma encode_octets (s : str) (b : bytes) : encode s = Ok b -> Forall octet b.
Proof.
  revert b. induction s as [|c s IH]; intros b; cbn [encode].
  - intros H. apply Ok_inj in H. subst b. constructor.
  - destruct (utf8_char c) as [bc|] eqn:Hc; [|discriminate].
    destruct (encode s) as [bs|e]; [|discriminate].
    intros H. apply Ok_inj in H. subst b.
    apply Forall_app. split; [exact (utf8_char_octets _ _ Hc)|now apply IH].
Qed.

End Octets.

(** The test suite of RFC 1321, appendix A.5, and inputs around the
    padding boundary. *)
Section TestVectors.
Import Hashlib.

Example md5_empty :
  hexdigest (md5 (lit "")) = lit "d41d8cd98f00b204e9800998ecf8427e".
Proof. vm_compute. reflexivity. Qed.

Example md5_a :
  hexdigest (md5 (lit "a")) = lit "0cc175b9c0f1b6a831c399e269772661".
Proof. vm_compute. reflexivity. Qed.

Example md5_abc :
  hexdigest (md5 (lit "abc")) = lit "900150983cd24fb0d6963f7d28e17f72".
Proof. vm_compute. reflexivity. Qed.

Example md5_message_digest :
  hexdigest (md5 (lit "message digest"))
  = lit "f96b697d7cb7938d525a2f31aaf161d0".
Proof. vm_compute. reflexivity. Qed.

Example md5_alphabet :
  hexdigest (md5 (lit "abcdefghijklmnopqrstuvwxyz"))
  = lit "c3fcd3d76192e4007dfb496cca67e13b".
Proof. vm_compute. reflexivity. Qed.

Example md5_alphanumeric :
  hexdigest (md5 (lit
    "ABCDEFGHIJKLMNOPQRSTUVWXYZabcdefghijklmnopqrstuvwxyz0123456789"))
  = lit "d174ab98d277d9f5a5611c2c9f419d9f".
Proof. vm_compute. reflexivity. Qed.

Example md5_digits :
  hexdigest (md5 (lit
    "12345678901234567890123456789012345678901234567890123456789012345678901234567890"))
  = lit "57edf4a22be3c955ac49da2e2107b67a".
Proof. vm_compute. reflexivity. Qed.

Example md5_55_octets :
  hexdigest (md5 (repeat 120 55)) = lit "04364420e25c512fd958a70738aa8f72".
Proof. vm_compute. reflexivity. Qed.

Example md5_56_octets :
  hexdigest (md5 (repeat 120 56)) = lit "668a72d5ba17f08e62dabcafad6db14b".
Proof. vm_compute. reflexivity. Qed.

Example md5_64_octets :
  hexdigest (md5 (repeat 120 64)) = lit "c1bb4f81d892b2d57947682aeb252456".
Proof. vm_compute. reflexivity. Qed.

(** One, two, three and four octets per code point. *)
Example encode_widths :
  encode (lit "caf" ++ [0xE9; 0x20; 0x20AC; 0x20; 0x1F600])
  = Ok [0x63; 0x61; 0x66; 0xC3; 0xA9; 0x20; 0xE2; 0x82; 0xAC; 0x20;
        0xF0; 0x9F; 0x98; 0x80].
Proof. vm_compute. reflexivity. Qed.

Example short_code_non_ascii :
  short_code (lit "caf" ++ [0xE9; 0x20; 0x20AC; 0x20; 0x1F600])
  = Ok (lit "bfcfeef833").
Proof. vm_compute. reflexivity. Qed.

Example short_code_example : short_code example_url = Ok (lit "c984d06aaf").
Proof. vm_compute. reflexivity. Qed.

Example encode_surrogate : encode [0xD800] = Raise UnicodeEncodeError.
Proof. reflexivity. Qed.

End TestVectors.

(** ** The statements and the connection *)

Section Database.

Lemma text_eqb_eq (a b : str) : text_eqb a b = true <-> a = b.
Proof.
  revert b. induction a as [|x a IH]; intros [|y b]; simpl;
    try (split; [discriminate|congruence]); [tauto|].
  rewrite andb_true_iff, Z.eqb_eq, IH. split; [intros []|intros [=]]; subst; auto.
Qed.

Lemma text_eqb_refl (a : str) : text_eqb a a = true.
Proof. now apply text_eqb_eq. Qed.

(** The primary-key check of the INSERT, as a property of the table. *)
Lemma key_absent (code : str) (s : state) :
  existsb (fun r => text_eqb (shortCode r) code) (urls (db (conn s))) = false
  <-> no_row code s.
Proof.
  unfold no_row. generalize (urls (db (conn s))) as t.
  induction t as [|r t IH]; simpl.
  - split; [intros _ ? []|reflexivity].
  - rewrite orb_false_iff, IH. split.
    + intros [Hr Ht] r' [<-|Hin] Heq; [|now apply (Ht r')].
      apply text_eqb_eq in Heq. congruence.
    + intros H. split; [|intros r' Hin; apply H; now right].
      destruct (text_eqb (shortCode r) code) eqn:E; [|reflexivity].
      apply text_eqb_eq in E. exfalso. apply (H r); auto.
Qed.

Lemma key_present (code : str) (s : state) :
  existsb (fun r => text_eqb (shortCode r) code) (urls (db (conn s))) = true
  <-> has_row code s.
Proof.
  unfold has_row. rewrite existsb_exists.
  split; intros (r & Hin & H); exists r; split; auto; now apply text_eqb_eq.
Qed.

Lemma no_match (code : str) (s : state) :
  no_row code s ->
  filter (fun r => text_eqb (shortCode r) code) (urls (db (conn s))) = [].
Proof.
  unfold no_row. generalize (urls (db (conn s))) as t.
  induction t as [|r t IH]; simpl; intros H; [reflexivity|].
  destruct (text_eqb (shortCode r) code) eqn:E.
  - apply text_eqb_eq in E. exfalso. apply (H r); auto.
  - apply IH. intros r' Hin. apply H. now right.
Qed.

(** Adapting the parameters one by one. *)
Lemma adapt_all_cons (p : str) (ps : list str) :
  adapt_all (p :: ps) = Ok tt <-> adapt p = Ok tt /\ adapt_all ps = Ok tt.
Proof.
  simpl. destruct (adapt p) as [u|e].
  - destruct u. tauto.
  - split; [discriminate|intros [H _]; discriminate].
Qed.

(** A statement that fails leaves both tables as they were. *)
Lemma execute_Raise (q : statement) (c c' : connection) (e : exception) :
  execute q c = (Raise e, c') -> db c' = db c.
Proof.
  unfold execute. destruct (adapt_all (parameters q)); [|now intros [= _ <-]].
  destruct (status c); [| |now intros [= _ <-]];
    (destruct (run q (db c)) as [[d' rows]|e']; [discriminate|now intros [= _ <-]]).
Qed.

(** A SELECT leaves both tables as they were. *)
Lemma execute_SELECT (q : statement) (c c' : connection)
      (r : result (option (list row))) :
  (forall d, match run q d with Ok (d', _) => d' = d | Raise _ => True end) ->
  execute q c = (r, c') -> db c' = db c.
Proof.
  intros Hq. unfold execute.
  destruct (adapt_all (parameters q)); [|now intros [= _ <-]].
  specialize (Hq (db c)).
  destruct (status c); [| |now intros [= _ <-]];
    (destruct (run q (db c)) as [[d' rows]|e']; intros [= _ <-]; simpl; auto).
Qed.

End Database.

(** ** The route functions *)

(** Unfolds a route function down to the statement it executes. *)
Ltac run_route :=
  unfold shorten_url, get_long_url, insert_new_item_record,
    select_all_item_records, get_all_urls, bind, lift, ret, cur_execute,
    cur_fetchone, dict_cursor_fetchall, conn_commit, commit, execute;
  cbn [parameters run conn cur db status items urls fst snd].

Section Routes.

(** POST /shorten succeeds exactly when the short code exists, the three
    parameters can be sent, the connection is usable and the key is
    free. *)
Lemma shorten_url_Ok (longUrl urlDesc : str) (s s' : state) (r : response) :
  shorten_url longUrl urlDesc s = (Ok r, s') ->
  exists code,
    short_code longUrl = Ok code
    /\ adapt_all [code; longUrl; urlDesc] = Ok tt
    /\ usable s /\ no_row code s
    /\ r = Return (shortCode_body code)
    /\ s' = shortened code longUrl urlDesc s.
Proof.
  run_route. destruct (short_code longUrl) as [code|e]; [|discriminate].
  destruct (adapt_all [code; longUrl; urlDesc]) as [[]|e] eqn:Ha; [|discriminate].
  unfold usable.
  destruct (existsb _ (urls (db (conn s)))) eqn:Hk;
    destruct (status (conn s)) eqn:Hs; try discriminate;
    intros [= <- <-]; exists code; apply key_absent in Hk;
    repeat split; auto; discriminate.
Qed.

Lemma shorten_url_run (longUrl urlDesc code : str) (s : state) :
  short_code longUrl = Ok code ->
  adapt_all [code; longUrl; urlDesc] = Ok tt ->
  usable s -> no_row code s ->
  shorten_url longUrl urlDesc s
  = (Ok (Return (shortCode_body code)), shortened code longUrl urlDesc s).
Proof.
  intros Hc Ha Hu Hk. apply key_absent in Hk. unfold usable in Hu.
  run_route. rewrite Hc, Ha, Hk.
  destruct (status (conn s)); try reflexivity. congruence.
Qed.

(** A POST /shorten that raises adds no row. *)
Lemma shorten_url_Raise (longUrl urlDesc : str) (s s' : state) (e : exception) :
  shorten_url longUrl urlDesc s = (Raise e, s') -> db (conn s') = db (conn s).
Proof.
  run_route. destruct (short_code longUrl) as [code|e0]; [|now intros [= _ <-]].
  destruct (adapt_all [code; longUrl; urlDesc]) as [[]|e1]; [|now intros [= _ <-]].
  destruct (existsb _ (urls (db (conn s))));
    destruct (status (conn s)); try discriminate; now intros [= _ <-].
Qed.

(** GET /{shortCode} on a usable connection, for a code that can be
    sent: the first matching row decides. *)
Lemma get_long_url_run (code : str) (s : state) :
  adapt code = Ok tt -> usable s ->
  get_long_url code s
  = let c := {| db := db (conn s); status := TRANSACTION_STATUS_INTRANS |} in
    match filter (fun r => text_eqb (shortCode r) code) (urls (db (conn s))) with
    | [] => (Ok (Return not_found), {| conn := c; cur := Some [] |})
    | r :: rest =>
        (Ok (RedirectResponse (longUrl r)),
         {| conn := c;
            cur := Some (map tuple_of
                           (map (fun r => [(fold_ident "longUrl", longUrl r);
                                           (fold_ident "urlDesc", urlDesc r)])
                                rest)) |})
    end.
Proof.
  intros Ha Hu. unfold usable in Hu. run_route.
  assert (Hall : adapt_all [code] = Ok tt) by (apply adapt_all_cons; auto).
  rewrite Hall.
  destruct (status (conn s)); try congruence;
    destruct (filter _ (urls (db (conn s)))); reflexivity.
Qed.

(** GET /{shortCode} answers only on a usable connection and for a code
    that can be sent. *)
Lemma get_long_url_Ok (code : str) (s s' : state) (r : response) :
  get_long_url code s = (Ok r, s') -> adapt code = Ok tt /\ usable s.
Proof.
  run_route. unfold usable.
  destruct (adapt_all [code]) as [[]|e] eqn:Ha; [|discriminate].
  apply adapt_all_cons in Ha as [Ha _].
  destruct (status (conn s)); try discriminate; intros _; split; auto; discriminate.
Qed.

End Routes.

(** The short code is made of ASCII digits and letters, so it can always
    be sent as a parameter. *)
Section CodeIsText.

Lemma lower_hex_range (x : Z) : is_lower_hex x = true -> 0 < x < 128.
Proof.
  unfold is_lower_hex.
  rewrite orb_true_iff, !andb_true_iff, !Z.leb_le. lia.
Qed.

Lemma encode_lower_hex (c : str) :
  forallb is_lower_hex c = true -> encode c = Ok c.
Proof.
  induction c as [|x c IH]; [reflexivity|].
  cbn [forallb]. rewrite andb_true_iff. intros [Hx Hc].
  apply lower_hex_range in Hx.
  cbn [encode]. rewrite (IH Hc). unfold utf8_char.
  destruct (Z.ltb_spec x 0); [lia|].
  destruct (Z.ltb_spec x 0x80); [reflexivity|lia].
Qed.

Lemma lower_hex_no_NUL (c : str) :
  forallb is_lower_hex c = true -> existsb (Z.eqb 0) c = false.
Proof.
  induction c as [|x c IH]; [reflexivity|].
  cbn [forallb existsb]. rewrite andb_true_iff. intros [Hx Hc].
  rewrite (IH Hc). apply lower_hex_range in Hx.
  destruct (Z.eqb_spec 0 x); [lia|reflexivity].
Qed.

Lemma short_code_lower_hex (longUrl code : str) :
  short_code longUrl = Ok code -> forallb is_lower_hex code = true.
Proof.
  unfold short_code. destruct (encode longUrl); [|discriminate].
  intros H. apply Ok_inj in H. rewrite <- H.
  unfold slice_to, Hashlib.hexdigest.
  apply forallb_firstn. apply hex_lower.
Qed.

Lemma short_code_adapt (longUrl code : str) :
  short_code longUrl = Ok code -> adapt code = Ok tt.
Proof.
  intros H. apply short_code_lower_hex in H. unfold adapt.
  now rewrite (encode_lower_hex _ H), (lower_hex_no_NUL _ H).
Qed.

End CodeIsText.

(** * The properties of the specification *)

(** ** C1: the short code is the truncated hex MD5 of the UTF-8 octets *)

(** C1.  For every string longUrl with UTF-8 octets [utf8], the short
    code computed by POST /shorten (main.py:93) is the first 10
    characters of the hex encoding of the 128-bit MD5 digest of [utf8],
    and it is the code a successful request returns. *)
Theorem shorten_code_is_md5_prefix (longUrl : str) (utf8 : bytes) :
  encode longUrl = Ok utf8 ->
  short_code longUrl = Ok (spec_shortCode utf8)
  /\ 8 * Z.of_nat (length (Hashlib.md5_digest utf8)) = 128
  /\ forall urlDesc s r s',
       shorten_url longUrl urlDesc s = (Ok r, s') ->
       r = Return (shortCode_body (spec_shortCode utf8)).
Proof.
  intros Henc.
  assert (Hcode : short_code longUrl = Ok (spec_shortCode utf8)).
  { unfold short_code. rewrite Henc. reflexivity. }
  split; [exact Hcode|]. split.
  - rewrite md5_digest_length. reflexivity.
  - intros urlDesc s r s' Hrun.
    apply shorten_url_Ok in Hrun as (code & Hc & _ & _ & _ & -> & _).
    rewrite Hcode in Hc. apply Ok_inj in Hc. now rewrite Hc.
Qed.

Lemma shorten_code_is_md5_prefix_witness :
  short_code example_url = Ok (spec_shortCode example_url)
  /\ 8 * Z.of_nat (length (Hashlib.md5_digest example_url)) = 128
  /\ forall urlDesc s r s',
       shorten_url example_url urlDesc s = (Ok r, s') ->
       r = Return (shortCode_body (spec_shortCode example_url)).
Proof.
  apply (shorten_code_is_md5_prefix example_url example_url).
  vm_compute. reflexivity.
Defined.

(** ** C2: shorten, then resolve *)



(** ** C3: a posted item is listed *)

(** C3, as stated, fails: after POST /item with the pair (pen, blue) on
    an empty table, GET /items returns one record and its keys are the
    column names [item_name] and [item_desc], not [name] and
    [description]. *)
Lemma posted_item_keys_counterexample :
  exists r s1 r' s2,
    insert_new_item_record (lit "pen") (lit "blue") (startup fresh) = (Ok r, s1)
    /\ select_all_item_records s1 = (Ok r', s2)
    /\ ~ item_listed "name" "description" (lit "pen") (lit "blue") r'.
Proof.
  do 4 eexists. split; [vm_compute; reflexivity|].
  split; [vm_compute; reflexivity|].
  intros (elements & members & [= <-] & [[= <-]|[]] & [Hk|[Hk|[]]] & _);
    discriminate Hk.
Qed.

(** C3, amended.  After a successful POST /item with (name, description),
    the array GET /items returns includes a record that carries the name
    under the key [item_name] and the description under the key
    [item_desc]. *)
Theorem posted_item_is_listed (name desc : str) (s s1 : state) (r : response) :
  insert_new_item_record name desc s = (Ok r, s1) ->
  exists r' s2,
    select_all_item_records s1 = (Ok r', s2)
    /\ item_listed "item_name" "item_desc" name desc r'.
Proof.
  run_route.
  destruct (adapt_all [name; desc]) as [[]|e]; [|discriminate].
  destruct (items (db (conn s))) as [t|] eqn:Ht;
    destruct (status (conn s)); try discriminate;
    intros [= _ <-]; cbn [conn db items status];
    (do 2 eexists; split; [reflexivity|]);
    (do 2 eexists; split; [reflexivity|]);
    (split; [rewrite !map_app; apply in_or_app; right; left; reflexivity|]);
    (split; [left; reflexivity|right; left; reflexivity]).
Qed.

Lemma posted_item_is_listed_witness :
  exists r' s2,
    select_all_item_records
      (snd (insert_new_item_record (lit "pen") (lit "blue") (startup fresh)))
    = (Ok r', s2)
    /\ item_listed "item_name" "item_desc" (lit "pen") (lit "blue") r'.
Proof.
  eapply (posted_item_is_listed (lit "pen") (lit "blue") (startup fresh)).
  vm_compute. reflexivity.
Defined.

(** ** C4: an unknown code *)

(** C4, as stated, fails in two ways.  After the same URL was shortened
    twice the transaction is aborted, and GET /unknown raises instead of
    answering, although no row has the code; and on a fresh connection a
    code holding a NUL cannot be sent as a parameter, so GET raises
    too. *)
Lemma unknown_code_counterexample :
  (no_row (lit "unknown") after_duplicate
   /\ fst (get_long_url (lit "unknown") after_duplicate)
      = Raise InFailedSqlTransaction)
  /\ (no_row [0] (startup fresh)
      /\ fst (get_long_url [0] (startup fresh)) = Raise ValueError).
Proof.
  split; split; try (vm_compute; reflexivity).
  - apply key_absent. vm_compute. reflexivity.
  - intros r [].
Qed.

(** C4, amended.  For a shortCode that no urls row has, every answer of
    GET /{shortCode} is the body [{"error": "URL not found"}] with status
    200 and never a redirect; and the route does answer when the
    connection is not in an aborted transaction and the code can be sent
    as a text parameter. *)
Theorem unknown_code_is_not_found (shortCode : str) (s : state) :
  no_row shortCode s ->
  (forall r s', get_long_url shortCode s = (Ok r, s') ->
                r = Return not_found /\ status_code r = 200
                /\ is_redirect r = false)
  /\ (usable s -> adapt shortCode = Ok tt ->
      exists s', get_long_url shortCode s = (Ok (Return not_found), s')).
Proof.
  intros Hfree. split.
  - intros r s' Hrun.
    destruct (get_long_url_Ok _ _ _ _ Hrun) as [Ha Hu].
    rewrite (get_long_url_run _ _ Ha Hu), (no_match _ _ Hfree) in Hrun.
    cbv zeta in Hrun. injection Hrun as <- _. now repeat split.
  - intros Hu Ha. rewrite (get_long_url_run _ _ Ha Hu), (no_match _ _ Hfree).
    eexists. reflexivity.
Qed.

Lemma unknown_code_is_not_found_witness :
  (forall r s', get_long_url (lit "unknown") (startup fresh) = (Ok r, s') ->
                r = Return not_found /\ status_code r = 200
                /\ is_redirect r = false)
  /\ (usable (startup fresh) -> adapt (lit "unknown") = Ok tt ->
      exists s', get_long_url (lit "unknown") (startup fresh)
                 = (Ok (Return not_found), s')).
Proof.
  apply (unknown_code_is_not_found (lit "unknown") (startup fresh)).
  intros r [].
Defined.

(** ** C5: a colliding code *)

(** C5, as stated, fails in two ways.  The third request for the same
    URL meets an aborted transaction and raises InFailedSqlTransaction,
    not a primary-key violation; and a request whose urlDesc holds a NUL
    raises ValueError before the INSERT is sent. *)
Lemma colliding_shorten_counterexample :
  (short_code example_url = Ok (lit "c984d06aaf")
   /\ has_row (lit "c984d06aaf") after_duplicate
   /\ fst (shorten_url example_url example_desc after_duplicate)
      = Raise InFailedSqlTransaction)
  /\ (has_row (lit "c984d06aaf")
              (shortened (lit "c984d06aaf") example_url example_desc (startup fresh))
      /\ fst (shorten_url example_url [0]
                (shortened (lit "c984d06aaf") example_url example_desc
                           (startup fresh)))
         = Raise ValueError).
Proof.
  split; [split; [|split]|split]; try (vm_compute; reflexivity);
    apply key_present; vm_compute; reflexivity.
Qed.

(** C5, amended.  For a longUrl whose short code is the shortCode of a
    row of urls, POST /shorten raises, returns no response and leaves
    both tables as they were; the exception is the primary-key violation
    when the connection is not in an aborted transaction and longUrl and
    urlDesc can be sent as text parameters. *)
Theorem colliding_shorten_raises (longUrl urlDesc code : str) (s : state) :
  short_code longUrl = Ok code ->
  has_row code s ->
  exists e s',
    shorten_url longUrl urlDesc s = (Raise e, s')
    /\ db (conn s') = db (conn s)
    /\ (usable s -> adapt longUrl = Ok tt -> adapt urlDesc = Ok tt ->
        e = UniqueViolation).
Proof.
  intros Hc Hrow. apply key_present in Hrow.
  destruct (shorten_url longUrl urlDesc s) as [[r|e] s'] eqn:Hrun.
  - apply shorten_url_Ok in Hrun as (code' & Hc' & _ & _ & Hfree & _).
    rewrite Hc in Hc'. apply Ok_inj in Hc'. subst code'.
    apply key_absent in Hfree. congruence.
  - exists e, s'. split; [reflexivity|].
    split; [exact (shorten_url_Raise _ _ _ _ _ Hrun)|].
    intros Hu Hl Hd. revert Hrun. run_route. rewrite Hc.
    assert (Ha : adapt_all [code; longUrl; urlDesc] = Ok tt).
    { repeat (apply adapt_all_cons; split); auto.
      exact (short_code_adapt _ _ Hc). }
    rewrite Ha, Hrow. unfold usable in Hu.
    destruct (status (conn s)); try congruence; now intros [= <- _].
Qed.

Lemma colliding_shorten_raises_witness :
  exists e s',
    shorten_url example_url example_desc
      (shortened (lit "c984d06aaf") example_url example_desc (startup fresh))
    = (Raise e, s')
    /\ db (conn s')
       = db (conn (shortened (lit "c984d06aaf") example_url example_desc
                             (startup fresh)))
    /\ (usable (shortened (lit "c984d06aaf") example_url example_desc
                          (startup fresh)) ->
        adapt example_url = Ok tt -> adapt example_desc = Ok tt ->
        e = UniqueViolation).
Proof.
  apply (colliding_shorten_raises example_url example_desc (lit "c984d06aaf")).
  - vm_compute. reflexivity.
  - eexists. split; [left; reflexivity|reflexivity].
Defined.

(** ** C6: the short code is a function of the long URL *)

(** C6.  Two evaluations of the short-code computation (main.py:93) on
    the same longUrl give the identical outcome, hence the identical
    code. *)
Theorem short_code_deterministic (longUrl : str) (run1 run2 : result str) :
  short_code longUrl = run1 -> short_code longUrl = run2 -> run1 = run2.
Proof. intros <- <-. reflexivity. Qed.

Lemma short_code_deterministic_witness :
  Ok (lit "c984d06aaf") = Ok (spec_shortCode example_url).
Proof.
  apply (short_code_deterministic example_url); vm_compute; reflexivity.
Defined.

(** ** C7: the shape of the short code *)

(** C7.  For every longUrl, a short code the computation produces is
    exactly 10 characters long and each character is a lowercase
    hexadecimal digit; and the computation does produce one whenever
    longUrl has a UTF-8 encoding. *)
Theorem short_code_shape (longUrl : str) :
  (forall code, short_code longUrl = Ok code ->
                length code = 10%nat /\ forallb is_lower_hex code = true)
  /\ (forall utf8, encode longUrl = Ok utf8 ->
                   exists code, short_code longUrl = Ok code).
Proof.
  split.
  - intros code Hc. split; [|exact (short_code_lower_hex _ _ Hc)].
    revert Hc. unfold short_code.
    destruct (encode longUrl) as [b|e]; [|discriminate].
    intros H. apply Ok_inj in H. rewrite <- H.
    unfold slice_to, Hashlib.hexdigest, Hashlib.digest, Hashlib.md5.
    cbn [Hashlib.fed].
    rewrite length_firstn, hex_length, md5_digest_length. reflexivity.
  - intros utf8 Henc. unfold short_code. rewrite Henc. eexists. reflexivity.
Qed.

Lemma short_code_shape_witness :
  length (lit "c984d06aaf") = 10%nat
  /\ forallb is_lower_hex (lit "c984d06aaf") = true.
Proof.
  apply (proj1 (short_code_shape example_url)). vm_compute. reflexivity.
Defined.

(** ** C8: the listing routes only read *)

(** C8.  From every state, GET /items and GET /urls leave the items
    table and the urls table as they were, whether they answer or
    raise. *)
Theorem listing_routes_read_only (s : state) :
  (items (db (conn (snd (select_all_item_records s)))) = items (db (conn s))
   /\ urls (db (conn (snd (select_all_item_records s)))) = urls (db (conn s)))
  /\ (items (db (conn (snd (get_all_urls s)))) = items (db (conn s))
      /\ urls (db (conn (snd (get_all_urls s)))) = urls (db (conn s))).
Proof.
  assert (H : forall q,
             (forall d, match run q d with Ok (d', _) => d' = d | Raise _ => True end) ->
             db (conn (snd (bind (dict_cursor_fetchall q)
                                 (fun data => ret (Return (JArray (map dict_of data)))) s)))
             = db (conn s)).
  { intros q Hq. unfold bind, ret, dict_cursor_fetchall.
    destruct (execute q (conn s)) as [[[rows|]|e] c] eqn:E; cbn [snd conn];
      exact (execute_SELECT _ _ _ _ Hq E). }
  split; split.
  1,2: unfold select_all_item_records; rewrite H; [reflexivity|].
  3,4: unfold get_all_urls; rewrite H; [reflexivity|].
  all: intros d; cbn [run]; now destruct (items d).
Qed.

(** ** C9: every stored code is the hash prefix of its long URL *)




(** ** C10: the description does not influence the code *)



(** * Further properties of the routes *)

Import Service.

(** ** What one request does to the tables and to the connection *)

Section OneRequest.

Lemma get_long_url_db (code : str) (s : state) :
  db (conn (snd (get_long_url code s))) = db (conn s).
Proof.
  run_route.
  destruct (adapt_all [code]) as [[]|e]; [|reflexivity].
  destruct (status (conn s)); try reflexivity;
    destruct (filter _ (urls (db (conn s)))); reflexivity.
Qed.

Lemma select_all_item_records_db (s : state) :
  db (conn (snd (select_all_item_records s))) = db (conn s).
Proof.
  run_route. cbn [adapt_all].
  destruct (status (conn s)); try reflexivity;
    destruct (items (db (conn s))); reflexivity.
Qed.

Lemma get_all_urls_db (s : state) :
  db (conn (snd (get_all_urls s))) = db (conn s).
Proof. run_route. cbn [adapt_all]. destruct (status (conn s)); reflexivity. Qed.

(** What a POST /item that returns has done. *)
Lemma insert_new_item_record_Ok (name desc : str) (s s' : state) (r : response) :
  insert_new_item_record name desc s = (Ok r, s') ->
  exists t,
    items (db (conn s)) = Some t
    /\ adapt_all [name; desc] = Ok tt
    /\ usable s
    /\ db (conn s')
       = {| items := Some (t ++ [{| item_name := name; item_desc := desc |}]);
            urls := urls (db (conn s)) |}
    /\ status (conn s') = TRANSACTION_STATUS_IDLE.
Proof.
  run_route. unfold usable.
  destruct (adapt_all [name; desc]) as [[]|e]; [|discriminate].
  destruct (items (db (conn s))) as [t|];
    destruct (status (conn s)) eqn:Hs; try discriminate;
    intros [= _ <-]; exists t; repeat split; discriminate.
Qed.

Lemma insert_new_item_record_Raise (name desc : str) (s s' : state)
      (e : exception) :
  insert_new_item_record name desc s = (Raise e, s') -> db (conn s') = db (conn s).
Proof.
  run_route.
  destruct (adapt_all [name; desc]) as [[]|e']; [|now intros [= _ <-]].
  destruct (items (db (conn s)));
    destruct (status (conn s)); try discriminate; now intros [= _ <-].
Qed.

End OneRequest.

(** ** The exceptions a route function can raise *)

Section Exceptions.

Lemma encode_Raise (s : str) (e : exception) :
  encode s = Raise e -> e = UnicodeEncodeError.
Proof.
  induction s as [|c s IH]; cbn [encode]; [discriminate|].
  destruct (utf8_char c) as [bc|]; destruct (encode s) as [bs|e'];
    try discriminate; intros [= <-]; auto.
Qed.



Lemma short_code_Raise (longUrl : str) (e : exception) :
  short_code longUrl = Raise e -> e = UnicodeEncodeError.
Proof.
  unfold short_code. destruct (encode longUrl) as [b|e'] eqn:E; [discriminate|].
  intros [= <-]. exact (encode_Raise _ _ E).
Qed.

End Exceptions.



(** ** What a request does to the tables *)

(** The effect of one request on the two tables. *)
Lemma handle_tables (q : request) (s : state) :
  match q, fst (handle q s) with
  | POST_item name desc, Ok _ =>
      exists t,
        items (db (conn s)) = Some t
        /\ items (db (conn (snd (handle q s))))
           = Some (t ++ [{| item_name := name; item_desc := desc |}])
        /\ urls (db (conn (snd (handle q s)))) = urls (db (conn s))
  | POST_shorten longUrl urlDesc, Ok _ =>
      exists code,
        short_code longUrl = Ok code
        /\ no_row code s
        /\ urls (db (conn (snd (handle q s))))
           = urls (db (conn s))
               ++ [{| shortCode := code; longUrl := longUrl; urlDesc := urlDesc |}]
        /\ items (db (conn (snd (handle q s)))) = items (db (conn s))
  | _, _ => db (conn (snd (handle q s))) = db (conn s)
  end.
Proof.
  destruct q as [| |name desc|longUrl urlDesc| |code]; cbn [handle].
  - reflexivity.
  - apply select_all_item_records_db.
  - destruct (insert_new_item_record name desc s) as [[r|e] s'] eqn:E; cbn [fst snd].
    + apply insert_new_item_record_Ok in E as (t & Ht & _ & _ & Hdb & _).
      exists t. rewrite Hdb. auto.
    + exact (insert_new_item_record_Raise _ _ _ _ _ E).
  - destruct (shorten_url longUrl urlDesc s) as [[r|e] s'] eqn:E; cbn [fst snd].
    + apply shorten_url_Ok in E as (code & Hc & _ & _ & Hfree & _ & ->).
      exists code. auto.
    + exact (shorten_url_Raise _ _ _ _ _ E).
  - apply get_all_urls_db.
  - apply get_long_url_db.
Qed.

(** X2.  A request changes a table only when it is a POST that returns.
    POST /item then appends the row (name, description) to items and
    leaves urls alone; POST /shorten then appends one row, under a code
    no row had, to urls and leaves items alone.  Every other request,
    and every request that raises, leaves both tables as they were. *)
Theorem request_effect (q : request) (s : state) :
  match q, fst (handle q s) with
  | POST_item name desc, Ok _ =>
      exists t,
        items (db (conn s)) = Some t
        /\ items (db (conn (snd (handle q s))))
           = Some (t ++ [{| item_name := name; item_desc := desc |}])
        /\ urls (db (conn (snd (handle q s)))) = urls (db (conn s))
  | POST_shorten longUrl urlDesc, Ok _ =>
      exists code,
        short_code longUrl = Ok code
        /\ no_row code s
        /\ urls (db (conn (snd (handle q s))))
           = urls (db (conn s))
               ++ [{| shortCode := code; longUrl := longUrl; urlDesc := urlDesc |}]
        /\ items (db (conn (snd (handle q s)))) = items (db (conn s))
  | _, _ => db (conn (snd (handle q s))) = db (conn s)
  end.
Proof. exact (handle_tables q s). Qed.

(** X3.  The transaction a request leaves when its route function
    returns: the two POST routes have committed and the connection is
    idle; the three GET routes on the database have not, and the
    connection stays inside the transaction their SELECT opened; GET /
    does not touch the connection. *)
Theorem status_after_answer (q : request) (s s' : state) (r : response) :
  handle q s = (Ok r, s') ->
  status (conn s') = status_after q (status (conn s)).
Proof.
  destruct q as [| |name desc|longUrl urlDesc| |code];
    cbn [handle status_after].
  - now intros [= _ <-].
  - run_route. cbn [adapt_all].
    destruct (status (conn s)); destruct (items (db (conn s)));
      try discriminate; now intros [= _ <-].
  - intros E. now apply insert_new_item_record_Ok in E as (t & _ & _ & _ & _ & ->).
  - intros E. now apply shorten_url_Ok in E as (c & _ & _ & _ & _ & _ & ->).
  - run_route. cbn [adapt_all].
    destruct (status (conn s)); try discriminate; now intros [= _ <-].
  - intros E. destruct (get_long_url_Ok _ _ _ _ E) as [Ha Hu].
    rewrite (get_long_url_run _ _ Ha Hu) in E. cbv zeta in E.
    destruct (filter _ (urls (db (conn s)))); now injection E as _ <-.
Qed.

Lemma status_after_answer_witness :
  status (conn (snd (get_all_urls (startup fresh))))
  = status_after GET_urls (status (conn (startup fresh))).
Proof.
  eapply (status_after_answer GET_urls (startup fresh)). vm_compute. reflexivity.
Defined.

(** ** The aborted transaction *)




(** ** Sequences of requests *)

Section Sequences.

(** One request leaves [urls] alone or appends one row, whose code no
    row had and is the short code of the row's long URL. *)
Lemma handle_urls (q : request) (s : state) :
  urls (db (conn (snd (handle q s)))) = urls (db (conn s))
  \/ exists code long desc,
       short_code long = Ok code
       /\ no_row code s
       /\ urls (db (conn (snd (handle q s))))
          = urls (db (conn s))
              ++ [{| shortCode := code; longUrl := long; urlDesc := desc |}].
Proof.
  pose proof (handle_tables q s) as H.
  destruct q as [| |name desc|long desc| |code];
    try (left; now rewrite H).
  - destruct (fst (handle (POST_item name desc) s));
      [destruct H as (t & _ & _ & ->)|rewrite H]; now left.
  - destruct (fst (handle (POST_shorten long desc) s)).
    + destruct H as (code & Hc & Hfree & Hu & _). right. now exists code, long, desc.
    + left. now rewrite H.
Qed.

(** One request leaves [items] alone or appends one row to it. *)
Lemma handle_items (q : request) (s : state) :
  items (db (conn (snd (handle q s)))) = items (db (conn s))
  \/ exists t name desc,
       items (db (conn s)) = Some t
       /\ items (db (conn (snd (handle q s))))
          = Some (t ++ [{| item_name := name; item_desc := desc |}]).
Proof.
  pose proof (handle_tables q s) as H.
  destruct q as [| |name desc|long desc| |code];
    try (left; now rewrite H).
  - destruct (fst (handle (POST_item name desc) s)).
    + destruct H as (t & Ht & Hi & _). right. now exists t, name, desc.
    + left. now rewrite H.
  - destruct (fst (handle (POST_shorten long desc) s));
      [destruct H as (c & _ & _ & _ & ->)|rewrite H]; now left.
Qed.

Lemma serve_urls (qs : list request) (s : state) :
  exists more, urls (db (conn (serve qs s))) = urls (db (conn s)) ++ more.
Proof.
  revert s. induction qs as [|q qs IH]; intros s; cbn [serve].
  - exists []. now rewrite app_nil_r.
  - destruct (IH (snd (handle q s))) as [more ->].
    destruct (handle_urls q s) as [->|(code & long & desc & _ & _ & ->)].
    + now exists more.
    + rewrite <- app_assoc. eexists. reflexivity.
Qed.

Lemma serve_items (qs : list request) (s : state) :
  match items (db (conn s)) with
  | None => items (db (conn (serve qs s))) = None
  | Some t => exists more, items (db (conn (serve qs s))) = Some (t ++ more)
  end.
Proof.
  revert s. induction qs as [|q qs IH]; intros s; cbn [serve].
  - destruct (items (db (conn s))) as [t|]; [|reflexivity].
    exists []. now rewrite app_nil_r.
  - specialize (IH (snd (handle q s))).
    destruct (handle_items q s) as [E|(t & name & desc & Ht & E)];
      rewrite E in IH; [exact IH|].
    rewrite Ht. destruct IH as [more ->]. rewrite <- app_assoc. eexists. reflexivity.
Qed.

Lemma NoDup_snoc {A} (l : list A) (x : A) :
  NoDup l -> ~ In x l -> NoDup (l ++ [x]).
Proof.
  induction l as [|y l IH]; cbn [app]; intros Hnd Hx.
  - constructor; [intros []|constructor].
  - apply NoDup_cons_iff in Hnd as [Hy Hnd]. constructor.
    + rewrite in_app_iff. intros [Hin|[->|[]]]; [now apply Hy|apply Hx; now left].
    + apply IH; [exact Hnd|]. intros Hin. apply Hx. now right.
Qed.

Lemma handle_keeps_key (q : request) (s : state) :
  NoDup (stored_codes s) -> NoDup (stored_codes (snd (handle q s))).
Proof.
  unfold stored_codes. intros Hnd.
  destruct (handle_urls q s) as [->|(code & long & desc & _ & Hfree & ->)]; [exact Hnd|].
  rewrite map_app. cbn [map shortCode]. apply NoDup_snoc; [exact Hnd|].
  intros Hin. apply in_map_iff in Hin as (r & Hr & Hin). exact (Hfree r Hin Hr).
Qed.

Lemma handle_keeps_codes_hashed (q : request) (s : state) :
  codes_hashed s -> codes_hashed (snd (handle q s)).
Proof.
  unfold codes_hashed. intros Hinv.
  destruct (handle_urls q s) as [->|(code & long & desc & Hc & _ & ->)]; [exact Hinv|].
  intros r. rewrite in_app_iff. intros [Hin|[<-|[]]]; [now apply Hinv|exact Hc].
Qed.

(** Distinct codes that are the short codes of their long URLs belong to
    distinct long URLs. *)
Lemma distinct_longUrls (s : state) :
  codes_hashed s -> NoDup (stored_codes s) -> NoDup (stored_longUrls s).
Proof.
  unfold codes_hashed, stored_codes, stored_longUrls.
  generalize (urls (db (conn s))) as t.
  induction t as [|r t IH]; cbn [map]; intros Hinv Hnd; [constructor|].
  apply NoDup_cons_iff in Hnd as [Hnotin Hnd].
  constructor.
  - intros Hin. apply in_map_iff in Hin as (r' & Hl & Hin). apply Hnotin.
    apply in_map_iff. exists r'. split; [|exact Hin].
    pose proof (Hinv r (or_introl eq_refl)) as Hr.
    pose proof (Hinv r' (or_intror Hin)) as Hr'.
    rewrite Hl, Hr in Hr'. apply Ok_inj in Hr'. now symmetry.
  - apply IH; [|exact Hnd]. intros r' Hin. apply Hinv. now right.
Qed.

Lemma stored_codes_serve (qs : list request) (s : state) :
  NoDup (stored_codes s) -> NoDup (stored_codes (serve qs s)).
Proof.
  revert s. induction qs as [|q qs IH]; intros s Hnd; cbn [serve]; [exact Hnd|].
  apply IH. now apply handle_keeps_key.
Qed.

Lemma codes_hashed_serve (qs : list request) (s : state) :
  codes_hashed s -> codes_hashed (serve qs s).
Proof.
  revert s. induction qs as [|q qs IH]; intros s Hinv; cbn [serve]; [exact Hinv|].
  apply IH. now apply handle_keeps_codes_hashed.
Qed.

End Sequences.

(** X5.  The tables only grow.  After any sequence of requests the urls
    table is the table before with rows appended to it, and so is the
    items table; an items table that is missing stays missing.  No row is
    ever changed, moved or removed. *)
Theorem tables_append_only (qs : list request) (s : state) :
  (exists more, urls (db (conn (serve qs s))) = urls (db (conn s)) ++ more)
  /\ match items (db (conn s)) with
     | None => items (db (conn (serve qs s))) = None
     | Some t => exists more, items (db (conn (serve qs s))) = Some (t ++ more)
     end.
Proof. split; [apply serve_urls|apply serve_items]. Qed.

(** X6.  The primary key is kept.  If no two urls rows share a shortCode,
    then after any sequence of requests, failing ones included, still no
    two rows do. *)
Theorem primary_key_kept (qs : list request) (s : state) :
  NoDup (stored_codes s) -> NoDup (stored_codes (serve qs s)).
Proof. exact (stored_codes_serve qs s). Qed.

Lemma primary_key_kept_witness :
  NoDup (stored_codes
           (serve [POST_shorten example_url example_desc;
                   POST_shorten (lit "abc") example_desc;
                   POST_shorten example_url (lit "again");
                   GET_urls]
                  (startup fresh))).
Proof. apply (primary_key_kept _ (startup fresh)). constructor. Defined.

(** X7.  Whatever the requests, every stored code is the hash prefix of
    its long URL: if each urls row's shortCode is the short code of the
    row's longUrl, the same holds after any sequence of requests to any
    of the routes. *)
Theorem codes_hashed_by_all_routes (qs : list request) (s : state) :
  codes_hashed s -> codes_hashed (serve qs s).
Proof. exact (codes_hashed_serve qs s). Qed.

Lemma codes_hashed_by_all_routes_witness :
  codes_hashed
    (serve [POST_item (lit "pen") (lit "blue");
            POST_shorten example_url example_desc;
            GET_shortCode (lit "c984d06aaf");
            POST_shorten (lit "abc") example_desc]
           (startup fresh)).
Proof. apply (codes_hashed_by_all_routes _ (startup fresh)). intros r []. Defined.

(** X8.  No long URL is stored twice.  From a urls table whose codes are
    pairwise distinct and are the hash prefixes of their long URLs (an
    empty table, for one), after any sequence of requests the long URLs
    of the rows are pairwise distinct. *)
Theorem no_longUrl_stored_twice (qs : list request) (s : state) :
  codes_hashed s -> NoDup (stored_codes s) ->
  NoDup (stored_longUrls (serve qs s)).
Proof.
  intros Hinv Hnd. apply distinct_longUrls;
    [now apply codes_hashed_serve|now apply stored_codes_serve].
Qed.

Lemma no_longUrl_stored_twice_witness :
  NoDup (stored_longUrls
           (serve [POST_shorten example_url example_desc;
                   POST_shorten example_url (lit "again");
                   POST_shorten (lit "abc") example_desc]
                  (startup fresh))).
Proof.
  apply (no_longUrl_stored_twice _ (startup fresh)); [intros r []|constructor].
Defined.

(** ** Resolving a code *)

Section Resolving.

(** The answer of GET /{shortCode} is decided by the first row that has
    the code. *)
Lemma get_long_url_first (code : str) (s s' : state) (r : response) :
  get_long_url code s = (Ok r, s') ->
  adapt code = Ok tt /\ usable s
  /\ match filter (fun row => text_eqb (shortCode row) code) (urls (db (conn s))) with
     | [] => r = Return not_found
     | row :: _ => r = RedirectResponse (longUrl row)
     end.
Proof.
  intros E. destruct (get_long_url_Ok _ _ _ _ E) as [Ha Hu].
  rewrite (get_long_url_run _ _ Ha Hu) in E. cbv zeta in E.
  repeat split; auto.
  destruct (filter _ (urls (db (conn s)))); now injection E as <- _.
Qed.


End Resolving.



(** X10.  A code is never re-pointed.  Once GET /{shortCode} has
    redirected to a URL, then after any sequence of further requests
    every answer of GET /{shortCode} for that code is a redirect to the
    same URL, and the route does answer whenever the connection is not
    aborted. *)
Theorem resolution_is_permanent (shortCode0 target : str) (s s1 : state)
        (qs : list request) :
  get_long_url shortCode0 s = (Ok (RedirectResponse target), s1) ->
  (forall r s2, get_long_url shortCode0 (serve qs s1) = (Ok r, s2) ->
                r = RedirectResponse target)
  /\ (usable (serve qs s1) ->
      exists s2, get_long_url shortCode0 (serve qs s1)
                 = (Ok (RedirectResponse target), s2)).
Proof.
  intros E.
  assert (Hdb : db (conn s1) = db (conn s)).
  { pose proof (get_long_url_db shortCode0 s) as H. now rewrite E in H. }
  apply get_long_url_first in E as (Ha & _ & H).
  destruct (serve_urls qs s1) as [more Hmore]. rewrite Hdb in Hmore.
  destruct (filter _ (urls (db (conn s)))) as [|row rest] eqn:Hf; [discriminate|].
  assert (Ht : longUrl row = target) by now injection H.
  assert (Hf' : filter (fun row => text_eqb (shortCode row) shortCode0)
                       (urls (db (conn (serve qs s1))))
                = row :: (rest ++ filter (fun row => text_eqb (shortCode row) shortCode0) more)).
  { now rewrite Hmore, filter_app, Hf. }
  split.
  - intros r s2 E2. apply get_long_url_first in E2 as (_ & _ & H2).
    rewrite Hf' in H2. now rewrite H2, Ht.
  - intros Hu. rewrite (get_long_url_run _ _ Ha Hu), Hf'. cbv zeta.
    rewrite Ht. eexists. reflexivity.
Qed.

Lemma resolution_is_permanent_witness :
  (forall r s2,
     get_long_url (lit "c984d06aaf")
       (serve [POST_shorten (lit "abc") example_desc; GET_items]
              (snd (get_long_url (lit "c984d06aaf")
                      (shortened (lit "c984d06aaf") example_url example_desc
                                 (startup fresh)))))
     = (Ok r, s2) ->
     r = RedirectResponse example_url)
  /\ (usable (serve [POST_shorten (lit "abc") example_desc; GET_items]
                    (snd (get_long_url (lit "c984d06aaf")
                            (shortened (lit "c984d06aaf") example_url example_desc
                                       (startup fresh))))) ->
      exists s2,
        get_long_url (lit "c984d06aaf")
          (serve [POST_shorten (lit "abc") example_desc; GET_items]
                 (snd (get_long_url (lit "c984d06aaf")
                         (shortened (lit "c984d06aaf") example_url example_desc
                                    (startup fresh)))))
        = (Ok (RedirectResponse example_url), s2)).
Proof.
  apply (resolution_is_permanent (lit "c984d06aaf") example_url
           (shortened (lit "c984d06aaf") example_url example_desc (startup fresh))).
  vm_compute. reflexivity.
Defined.

(** X11.  One duplicate submission takes the short links down.  After a
    POST /shorten that returned code X, a second POST /shorten of the same
    longUrl (with a description that can be sent) raises the primary-key
    violation and adds no row, and from then on GET /X, which would have
    redirected, raises InFailedSqlTransaction. *)
Theorem duplicate_breaks_the_link (longUrl urlDesc urlDesc2 : str)
        (s s1 : state) (r : response) :
  shorten_url longUrl urlDesc s = (Ok r, s1) ->
  adapt urlDesc2 = Ok tt ->
  exists X s2 s3,
    r = Return (shortCode_body X)
    /\ shorten_url longUrl urlDesc2 s1 = (Raise UniqueViolation, s2)
    /\ db (conn s2) = db (conn s1)
    /\ get_long_url X s2 = (Raise InFailedSqlTransaction, s3).
Proof.
  intros E Hd2.
  apply shorten_url_Ok in E as (code & Hc & Ha & _ & _ & -> & ->).
  apply adapt_all_cons in Ha as (Hcode & Ha).
  apply adapt_all_cons in Ha as (Hl & _).
  assert (Ha2 : adapt_all [code; longUrl; urlDesc2] = Ok tt).
  { repeat (apply adapt_all_cons; split); auto. }
  assert (Hget : adapt_all [code] = Ok tt) by (apply adapt_all_cons; auto).
  exists code. do 2 eexists. split; [reflexivity|].
  run_route. rewrite Hc, Ha2. cbn [shortened conn db urls status].
  rewrite existsb_app. cbn [existsb shortCode]. rewrite text_eqb_refl, orb_true_r.
  cbn [orb]. split; [reflexivity|]. split; [reflexivity|].
  cbn [conn status]. rewrite Hget. reflexivity.
Qed.

Lemma duplicate_breaks_the_link_witness :
  exists X s2 s3,
    Return (shortCode_body (lit "c984d06aaf")) = Return (shortCode_body X)
    /\ shorten_url example_url (lit "again")
         (shortened (lit "c984d06aaf") example_url example_desc (startup fresh))
       = (Raise UniqueViolation, s2)
    /\ db (conn s2)
       = db (conn (shortened (lit "c984d06aaf") example_url example_desc
                             (startup fresh)))
    /\ get_long_url X s2 = (Raise InFailedSqlTransaction, s3).
Proof.
  apply (duplicate_breaks_the_link example_url example_desc (lit "again")
           (startup fresh)); vm_compute; reflexivity.
Defined.

(** ** Every stored link *)

Section StoredLinks.


Lemma short_code_length (longUrl code : str) :
  short_code longUrl = Ok code -> length code = 10%nat.
Proof.
  unfold short_code. destruct (encode longUrl) as [b|e]; [|discriminate].
  intros H. apply Ok_inj in H. rewrite <- H.
  unfold slice_to, Hashlib.hexdigest, Hashlib.digest, Hashlib.md5.
  cbn [Hashlib.fed].
  rewrite length_firstn, hex_length, md5_digest_length. reflexivity.
Qed.

End StoredLinks.



(** X13.  Only a well-formed code can redirect.  In a state whose urls
    codes are the hash prefixes of their long URLs, GET /{shortCode} for
    a shortCode that is not 10 characters long, or has a character
    outside 0-9a-f, answers with the not-found body whenever it
    answers. *)
Theorem malformed_code_never_redirects (shortCode0 : str) (s s' : state)
        (r : response) :
  codes_hashed s ->
  length shortCode0 <> 10%nat \/ forallb is_lower_hex shortCode0 = false ->
  get_long_url shortCode0 s = (Ok r, s') ->
  r = Return not_found.
Proof.
  intros Hinv Hbad E. apply get_long_url_first in E as (_ & _ & H).
  destruct (filter _ (urls (db (conn s)))) as [|row rest] eqn:Hf; [exact H|].
  exfalso.
  assert (Hin : In row (row :: rest)) by now left.
  rewrite <- Hf in Hin. apply filter_In in Hin as [Hin Hr].
  apply text_eqb_eq in Hr. specialize (Hinv row Hin). rewrite Hr in Hinv.
  destruct Hbad as [Hlen|Hhex].
  - apply Hlen. exact (short_code_length _ _ Hinv).
  - rewrite (short_code_lower_hex _ _ Hinv) in Hhex. discriminate.
Qed.

Lemma malformed_code_never_redirects_witness :
  Return not_found = Return not_found.
Proof.
  eapply (malformed_code_never_redirects (lit "C984D06AAF")
            (shortened (lit "c984d06aaf") example_url example_desc (startup fresh))).
  - intros row [<-|[]]. vm_compute. reflexivity.
  - right. vm_compute. reflexivity.
  - vm_compute. reflexivity.
Defined.

(** ** When the short code cannot be computed *)

Section Unencodable.

Lemma utf8_char_None (c : Z) : utf8_char c = None <-> unencodable c.
Proof.
  unfold utf8_char, unencodable.
  destruct (Z.ltb_spec c 0); [split; auto|].
  destruct (Z.ltb_spec c 0x80); [split; [discriminate|lia]|].
  destruct (Z.ltb_spec c 0x800); [split; [discriminate|lia]|].
  destruct (Z.leb_spec 0xD800 c); destruct (Z.leb_spec c 0xDFFF); cbn [andb].
  - split; [intros _; right; left; lia|reflexivity].
  - destruct (Z.ltb_spec c 0x10000); [split; [discriminate|lia]|].
    destruct (Z.ltb_spec c 0x110000); [split; [discriminate|lia]|].
    split; [intros _; right; right; lia|reflexivity].
  - destruct (Z.ltb_spec c 0x10000); [split; [discriminate|lia]|lia].
  - lia.
Qed.

Lemma encode_Raise_iff (s : str) :
  (exists e, encode s = Raise e) <-> Exists unencodable s.
Proof.
  induction s as [|c s IH]; cbn [encode].
  - split; [intros [e H]; discriminate|intros H; inversion H].
  - rewrite Exists_cons, <- IH, <- utf8_char_None.
    destruct (utf8_char c) as [b|]; destruct (encode s) as [bs|e'].
    + split; [intros [e H]; discriminate|intros [H|[e H]]; discriminate].
    + split; [right; eauto|eauto].
    + split; [now left|eauto].
    + split; [now left|eauto].
Qed.

End Unencodable.

(** X14.  The short code fails to be computed exactly when longUrl holds
    a code point that has no UTF-8 encoding (a lone surrogate); the
    exception is then UnicodeEncodeError, and POST /shorten raises it
    before it touches the connection: the state is left exactly as it
    was. *)
Theorem short_code_fails_on_surrogates (longUrl : str) :
  ((exists e, short_code longUrl = Raise e) <-> Exists unencodable longUrl)
  /\ forall e urlDesc s,
       short_code longUrl = Raise e ->
       e = UnicodeEncodeError
       /\ shorten_url longUrl urlDesc s = (Raise UnicodeEncodeError, s).
Proof.
  split.
  - rewrite <- encode_Raise_iff. unfold short_code.
    destruct (encode longUrl) as [b|e]; split; intros [e' H];
      try discriminate; eauto.
  - intros e urlDesc s H. pose proof (short_code_Raise _ _ H) as ->.
    split; [reflexivity|]. run_route. now rewrite H.
Qed.

Lemma short_code_fails_on_surrogates_witness :
  exists e, short_code (lit "https://example.com/" ++ [0xD83D]) = Raise e.
Proof.
  apply (proj1 (short_code_fails_on_surrogates _)).
  apply Exists_exists. exists 0xD83D. split.
  - apply in_or_app. right. left. reflexivity.
  - right. left. lia.
Defined.

(** ** The code and the digest *)

Section FortyBits.

Lemma land_255_octet (x : Z) : octet (Z.land x 0xFF).
Proof.
  unfold octet. change 0xFF with (Z.ones 8). rewrite Z.land_ones by lia.
  pose proof (Z.mod_pos_bound x (2 ^ 8) eq_refl). lia.
Qed.

Lemma le_bytes_octets (n : nat) (w : Z) : Forall octet (Hashlib.le_bytes n w).
Proof.
  unfold Hashlib.le_bytes. apply Forall_forall. intros x Hin.
  apply in_map_iff in Hin as (i & <- & _). apply land_255_octet.
Qed.

Lemma md5_digest_octets (data : bytes) : Forall octet (Hashlib.md5_digest data).
Proof.
  unfold Hashlib.md5_digest. cbv zeta.
  repeat (apply Forall_app; split); apply le_bytes_octets.
Qed.

Lemma Forall_firstn_octet (n : nat) (b : bytes) :
  Forall octet b -> Forall octet (firstn n b).
Proof.
  intros Hb. revert n. induction Hb as [|x b Hx Hb IH]; intros [|n];
    cbn [firstn]; constructor; auto.
Qed.

Lemma hex_firstn (n : nat) (b : bytes) :
  firstn (2 * n) (hex b) = hex (firstn n b).
Proof.
  unfold hex. revert b. induction n as [|n IH]; intros b; [reflexivity|].
  replace (2 * S n)%nat with (S (S (2 * n))) by lia.
  destruct b as [|x b]; [reflexivity|].
  cbn [flat_map firstn hex_byte app]. now rewrite IH.
Qed.

Lemma hex_digit_inj (d d' : Z) :
  0 <= d < 16 -> 0 <= d' < 16 -> hex_digit d = hex_digit d' -> d = d'.
Proof.
  intros Hd Hd'.
  assert (H : d = 0 \/ d = 1 \/ d = 2 \/ d = 3 \/ d = 4 \/ d = 5 \/ d = 6
              \/ d = 7 \/ d = 8 \/ d = 9 \/ d = 10 \/ d = 11 \/ d = 12
              \/ d = 13 \/ d = 14 \/ d = 15) by lia.
  assert (H' : d' = 0 \/ d' = 1 \/ d' = 2 \/ d' = 3 \/ d' = 4 \/ d' = 5 \/ d' = 6
               \/ d' = 7 \/ d' = 8 \/ d' = 9 \/ d' = 10 \/ d' = 11 \/ d' = 12
               \/ d' = 13 \/ d' = 14 \/ d' = 15) by lia.
  clear Hd Hd'.
  repeat (destruct H as [->|H]);
    try subst d; repeat (destruct H' as [->|H']); try subst d';
    first [reflexivity|discriminate].
Qed.

(** An octet is its two hex digits. *)
Lemma octet_nibbles (x : Z) :
  octet x -> x = 16 * Z.land (Z.shiftr x 4) 0xF + Z.land x 0xF.
Proof.
  unfold octet. intros Hx. change 0xF with (Z.ones 4).
  rewrite !Z.land_ones, Z.shiftr_div_pow2 by lia. change (2 ^ 4) with 16.
  rewrite (Z.mod_small (x / 16) 16).
  - apply Z.div_mod. lia.
  - split; [apply Z.div_pos; lia|apply Z.div_lt_upper_bound; lia].
Qed.

Lemma hex_inj (b b' : bytes) :
  Forall octet b -> Forall octet b' -> hex b = hex b' -> b = b'.
Proof.
  unfold hex. intros Hb. revert b'.
  induction Hb as [|x b Hx Hb IH]; intros b' Hb' H.
  - destruct b' as [|y b']; [reflexivity|discriminate].
  - destruct Hb' as [|y b' Hy Hb']; [discriminate|].
    cbn [flat_map hex_byte app] in H.
    assert (Hhi : hex_digit (Z.land (Z.shiftr x 4) 0xF)
                  = hex_digit (Z.land (Z.shiftr y 4) 0xF))
      by exact (f_equal (fun l => nth 0 l 0) H).
    assert (Hlo : hex_digit (Z.land x 0xF) = hex_digit (Z.land y 0xF))
      by exact (f_equal (fun l => nth 1 l 0) H).
    assert (Hrest : flat_map hex_byte b = flat_map hex_byte b')
      by exact (f_equal (skipn 2) H).
    apply hex_digit_inj in Hhi; try apply land_15_range.
    apply hex_digit_inj in Hlo; try apply land_15_range.
    rewrite (octet_nibbles x Hx), (octet_nibbles y Hy), Hhi, Hlo.
    f_equal. now apply IH.
Qed.

End FortyBits.

(** X15.  The short code is the hex of the first five octets of the MD5
    digest, 40 bits, and nothing else: two long URLs get the same short
    code exactly when the digests of their UTF-8 octets agree on the
    first five octets. *)
Theorem short_code_is_forty_bits (longUrl1 longUrl2 : str) (utf8_1 utf8_2 : bytes) :
  encode longUrl1 = Ok utf8_1 ->
  encode longUrl2 = Ok utf8_2 ->
  short_code longUrl1 = Ok (hex (firstn 5 (Hashlib.md5_digest utf8_1)))
  /\ (short_code longUrl1 = short_code longUrl2
      <-> firstn 5 (Hashlib.md5_digest utf8_1)
          = firstn 5 (Hashlib.md5_digest utf8_2)).
Proof.
  intros H1 H2.
  assert (Hcode : forall l b, encode l = Ok b ->
                    short_code l = Ok (hex (firstn 5 (Hashlib.md5_digest b)))).
  { intros l b H. unfold short_code. rewrite H.
    unfold slice_to, Hashlib.hexdigest, Hashlib.digest, Hashlib.md5.
    cbn [Hashlib.fed]. now rewrite <- hex_firstn. }
  split; [now apply Hcode|].
  rewrite (Hcode _ _ H1), (Hcode _ _ H2).
  pose proof (md5_digest_octets utf8_1) as O1.
  pose proof (md5_digest_octets utf8_2) as O2.
  revert O1 O2.
  generalize (Hashlib.md5_digest utf8_1) as d1.
  generalize (Hashlib.md5_digest utf8_2) as d2.
  intros d2 d1 O1 O2. split.
  - intros H. apply Ok_inj in H.
    apply hex_inj; [now apply Forall_firstn_octet|now apply Forall_firstn_octet|exact H].
  - now intros ->.
Qed.

Lemma short_code_is_forty_bits_witness :
  short_code example_url
  = Ok (hex (firstn 5 (Hashlib.md5_digest example_url)))
  /\ (short_code example_url = short_code (lit "abc")
      <-> firstn 5 (Hashlib.md5_digest example_url)
          = firstn 5 (Hashlib.md5_digest (lit "abc"))).
Proof.
  apply (short_code_is_forty_bits example_url (lit "abc"));
    vm_compute; reflexivity.
Defined.

(** ** Shorten, then list *)

(** X16.  After a POST /shorten that returned code X, GET /urls answers
    with one record per row, one more than the table had before, and one
    of them carries X, the longUrl and the urlDesc of the request, in the
    order of the columns. *)
Theorem shortened_url_is_listed (longUrl urlDesc : str) (s s1 : state)
        (r : response) :
  shorten_url longUrl urlDesc s = (Ok r, s1) ->
  exists X elements members s2,
    r = Return (shortCode_body X)
    /\ get_all_urls s1 = (Ok (Return (JArray elements)), s2)
    /\ length elements = S (length (urls (db (conn s))))
    /\ In (JObject members) elements
    /\ map snd members = [JString X; JString longUrl; JString urlDesc].
Proof.
  intros E. apply shorten_url_Ok in E as (code & _ & _ & _ & _ & -> & ->).
  exists code. do 3 eexists. split; [reflexivity|].
  run_route. cbn [adapt_all shortened conn db urls status].
  split; [reflexivity|]. split.
  - rewrite !length_map, length_app. cbn [length]. lia.
  - split.
    + rewrite !map_app. apply in_or_app. right. left. reflexivity.
    + reflexivity.
Qed.

Lemma shortened_url_is_listed_witness :
  exists X elements members s2,
    Return (shortCode_body (lit "c984d06aaf")) = Return (shortCode_body X)
    /\ get_all_urls (shortened (lit "c984d06aaf") example_url example_desc
                               (startup fresh))
       = (Ok (Return (JArray elements)), s2)
    /\ length elements = S (length (urls (db (conn (startup fresh)))))
    /\ In (JObject members) elements
    /\ map snd members = [JString X; JString example_url; JString example_desc].
Proof.
  apply (shortened_url_is_listed example_url example_desc (startup fresh)).
  vm_compute. reflexivity.
Defined.
